(** * Rollkit block header ([types/header.go]): model and verified properties

    The Go package [types] defines the rollup block header, its accessors,
    the structural check [ValidateBasic], the trust check [Verify] and the
    encoder [MakeCometBFTVote].  Every method has a pointer receiver
    ([h *Header]), so the model threads a store of header objects through
    a small state-and-panic monad: a receiver is [nil] or an address in the
    store, reading a field of [nil] panics, and each method returns the
    store it leaves behind.

    Layout: the Go values the file relies on, the store monad, the data
    model and the methods, the definitions used to state the properties,
    and then the lemmas and theorems. *)

From Stdlib Require Import ZArith NArith Lia List String Ascii.
From Stdlib Require Import Strings.Byte.
From stdpp Require Import base option gmap strings.

Local Open Scope Z_scope.

(** ** Go values used by the file *)

(** Conversion of an integer to Go's [int64]: the low 64 bits, read as a
    two's-complement number. *)
Definition int64 (x : Z) : Z := (x + 2 ^ 63) mod 2 ^ 64 - 2 ^ 63.

(** Range of a Go [uint64]. *)
Definition uint64_ok (x : Z) : Prop := 0 <= x < 2 ^ 64.

(** Package [bytes] of the Go standard library. *)
Module bytes.

(** [func Equal(a, b []byte) bool]: same length and same bytes; a nil
    slice and an empty slice are equal. *)
Fixpoint Equal (a b : list byte) : bool :=
  match a, b with
  | [], [] => true
  | x :: a', y :: b' => Byte.eqb x y && Equal a' b'
  | _, _ => false
  end.

End bytes.

(** Package [fmt] of the Go standard library, as far as the error text of
    [Verify] needs it. *)
Module fmt.

Definition udigits : string := "0123456789ABCDEF".

Definition digit (n : N) : ascii :=
  match String.get (N.to_nat n) udigits with
  | Some c => c
  | None => "?"%char
  end.

(** The verb [%X] on a byte slice: for each byte [c] the two characters
    [udigits[c>>4]] and [udigits[c&0xF]], nothing in between. *)
Fixpoint X (bs : list byte) : string :=
  match bs with
  | [] => EmptyString
  | c :: rest =>
      String (digit (N.shiftr (Byte.to_N c) 4))
        (String (digit (N.land (Byte.to_N c) 15)) (X rest))
  end.

End fmt.

(** Package [time] of the Go standard library.  A [Time] is kept as the
    instant it denotes (whole seconds since the Unix epoch and nanoseconds
    within the second) together with its location, which only matters for
    printing. *)
Module time.

Inductive Location := Local | UTC.

Record Time := { sec : Z; nsec : Z; loc : Location }.

(** [func Unix(sec int64, nsec int64) Time]: Go's division truncates
    towards zero ([Z.quot]); the result is in the local location. *)
Definition Unix (sec nsec : Z) : Time :=
  let '(s, n) :=
    if (nsec <? 0) || (nsec >=? 10 ^ 9) then
      let n := nsec ÷ 10 ^ 9 in
      let sec := int64 (sec + n) in
      let nsec := nsec - n * 10 ^ 9 in
      if nsec <? 0 then (int64 (sec - 1), nsec + 10 ^ 9) else (sec, nsec)
    else (sec, nsec) in
  {| sec := s; nsec := n; loc := Local |}.

(** Nanoseconds between the Unix epoch and the instant of [t]. *)
Definition UnixNano (t : Time) : Z := sec t * 10 ^ 9 + nsec t.

End time.

(** The vote record of the consensus engine's protobuf package. *)
Module cmtproto.

Inductive SignedMsgType :=
  UnknownType | PrevoteType | PrecommitType | ProposalType.

Module PartSetHeader.
Record t := { Total : Z; Hash : list byte }.
(** The composite literal [PartSetHeader{}]. *)
Definition zero : t := {| Total := 0; Hash := [] |}.
End PartSetHeader.

Module BlockID.
Record t := { Hash : list byte; PartSetHeader : PartSetHeader.t }.
End BlockID.

(** The fields that [MakeCometBFTVote] sets; the fields of the library's
    struct that the literal leaves out keep Go's zero value. *)
Module Vote.
Record t := {
  Type_ : SignedMsgType;
  Height : Z;
  Round : Z;
  BlockID : BlockID.t;
  Timestamp : time.Time;
  ValidatorAddress : list byte;
  ValidatorIndex : Z
}.
End Vote.

End cmtproto.

(** ** The store and the monad of pointer-receiver methods *)

Module Go.

Definition loc := positive.

(** A pointer is [nil] or the address of an object. *)
Definition ptr := option loc.
Definition nil : ptr := None.

Inductive outcome (A : Type) : Type :=
| Ret (a : A)
| Panic.
Arguments Ret {A} a.
Arguments Panic {A}.

Section Store.
Context {Obj : Type}.

Definition M (A : Type) : Type := gmap loc Obj -> outcome A * gmap loc Obj.

Definition ret {A} (a : A) : M A := fun s => (Ret a, s).

Definition bind {A B} (m : M A) (k : A -> M B) : M B :=
  fun s =>
    match m s with
    | (Ret a, s') => k a s'
    | (Panic, s') => (Panic, s')
    end.

(** Reading through a pointer: a nil pointer dereference panics. *)
Definition load (p : ptr) : M Obj :=
  fun s =>
    match p with
    | None => (Panic, s)
    | Some l =>
        match s !! l with
        | Some o => (Ret o, s)
        | None => (Panic, s)
        end
    end.

(** [new(T)]: a fresh address holding the zero value. *)
Definition new (zero : Obj) : M ptr :=
  fun s => let l := fresh (dom s) in (Ret (Some l), <[l := zero]> s).

End Store.

Module Notations.
Notation "'let*' x ':=' m 'in' k" := (bind m (fun x => k))
  (at level 10, x name, m at level 100, k at level 200).
End Notations.

End Go.

Import Go.Notations.

(** ** The data model of [types/header.go] *)

(** [type Hash = header.Hash], a byte slice. *)
Definition Hash := list byte.

(** Modelled from the spec: the type [Version] is declared in another file
    of the package; the spec describes it as the block/app version pair. *)
Module Version.
Record t := { Block : Z; App : Z }.
End Version.

(** [BaseHeader]: height and Unix nanotime are [uint64]. *)
Module BaseHeader.
Record t := { Height : Z; Time : Z; ChainID : string }.
End BaseHeader.

(** Go's [error] results of this file: the package's sentinel
    [ErrNoProposerAddress] and [*header.VerifyError], kept with the text of
    its [Reason]. *)
Inductive error :=
| ErrNoProposerAddress
| VerifyError (Reason : string).

Module Header.

Record t := {
  BaseHeader : BaseHeader.t;
  Version : Version.t;
  LastHeaderHash : Hash;
  LastCommitHash : Hash;
  DataHash : Hash;
  ConsensusHash : Hash;
  AppHash : Hash;
  ValidatorHash : Hash;
  LastResultsHash : Hash;
  ProposerAddress : list byte
}.

(** The zero value of the struct. *)
Definition zero : t := {|
  BaseHeader := {| BaseHeader.Height := 0; BaseHeader.Time := 0;
                   BaseHeader.ChainID := EmptyString |};
  Version := {| Version.Block := 0; Version.App := 0 |};
  LastHeaderHash := []; LastCommitHash := []; DataHash := [];
  ConsensusHash := []; AppHash := []; ValidatorHash := [];
  LastResultsHash := []; ProposerAddress := []
|}.

(** Methods run over a store of headers. *)
Definition M (A : Type) : Type := Go.M (Obj := t) A.

(** The text built by
    [fmt.Errorf("expected proposer (%X) got (%X)", a, b)]. *)
Definition expected_got (a b : list byte) : string :=
  ("expected proposer (" ++ fmt.X a ++ ") got (" ++ fmt.X b ++ ")")%string.

Definition New (h : Go.ptr) : M Go.ptr := Go.new zero.

Definition IsZero (h : Go.ptr) : M bool :=
  Go.ret (match h with None => true | Some _ => false end).

Definition ChainID (h : Go.ptr) : M string :=
  let* hv := Go.load h in
  Go.ret (BaseHeader.ChainID (BaseHeader hv)).

Definition Height (h : Go.ptr) : M Z :=
  let* hv := Go.load h in
  Go.ret (BaseHeader.Height (BaseHeader hv)).

Definition LastHeader (h : Go.ptr) : M Hash :=
  let* hv := Go.load h in
  Go.ret (LastHeaderHash hv).

Definition Time (h : Go.ptr) : M time.Time :=
  let* hv := Go.load h in
  Go.ret (time.Unix 0 (int64 (BaseHeader.Time (BaseHeader hv)))).

Definition Verify (h untrstH : Go.ptr) : M (option error) :=
  let* u := Go.load untrstH in
  let* hv := Go.load h in
  if negb (bytes.Equal (ProposerAddress u) (ProposerAddress hv)) then
    Go.ret (Some (VerifyError
                    (expected_got (ProposerAddress hv) (ProposerAddress u))))
  else Go.ret None.

Definition ValidateBasic (h : Go.ptr) : M (option error) :=
  let* hv := Go.load h in
  if (Z.of_nat (length (ProposerAddress hv)) =? 0) then
    Go.ret (Some ErrNoProposerAddress)
  else Go.ret None.

Definition Validate (h : Go.ptr) : M (option error) :=
  ValidateBasic h.

Section Vote.

(** Modelled from the spec: the content hash (method [Hash], in another
    file of the package) is a deterministic function of the header's
    fields. *)
Variable hashOf : t -> Hash.

(** [cmtypes.VoteSignBytes] of the consensus engine: the canonical
    sign-bytes of a vote under a chain identifier. *)
Variable VoteSignBytes : string -> cmtproto.Vote.t -> list byte.

Definition Hash (h : Go.ptr) : M (list byte) :=
  let* hv := Go.load h in
  Go.ret (hashOf hv).

(** The statement [vote := cmtproto.Vote{...}]; the fields of the literal
    are evaluated in the order they are written. *)
Definition MakeCometBFTVote_vote (h : Go.ptr) : M cmtproto.Vote.t :=
  let* height := Height h in
  let* hash := Hash h in
  let* timestamp := Time h in
  let* hv := Go.load h in
  Go.ret {|
    cmtproto.Vote.Type_ := cmtproto.PrecommitType;
    cmtproto.Vote.Height := int64 height;
    cmtproto.Vote.Round := 0;
    cmtproto.Vote.BlockID := {|
      cmtproto.BlockID.Hash := hash;
      cmtproto.BlockID.PartSetHeader := cmtproto.PartSetHeader.zero |};
    cmtproto.Vote.Timestamp := timestamp;
    cmtproto.Vote.ValidatorAddress := ProposerAddress hv;
    cmtproto.Vote.ValidatorIndex := 0
  |}.

Definition MakeCometBFTVote (h : Go.ptr) : M (list byte) :=
  let* vote := MakeCometBFTVote_vote h in
  let* chainID := ChainID h in
  let consensusVoteBytes := VoteSignBytes chainID vote in
  Go.ret consensusVoteBytes.

End Vote.

End Header.

(** ** Definitions used to state the properties *)

(** A computation is read-only when it hands back the store it was given,
    whether it returns or panics. *)
Definition read_only {A} (m : Header.M A) : Prop :=
  forall s : gmap Go.loc Header.t, (m s).2 = s.

(** Reading the text of [%X] back: the value of a digit and the byte of
    two digits. *)
Module unfmt.

Definition value (c : ascii) : N :=
  let n := N_of_ascii c in
  if (n <? 58)%N then (n - 48)%N else (n - 55)%N.

Definition byte_of (hi lo : ascii) : option byte :=
  Byte.of_N (16 * value hi + value lo)%N.

End unfmt.

(** The two characters [%X] writes for a byte. *)
Definition hi (c : byte) : ascii := fmt.digit (N.shiftr (Byte.to_N c) 4).
Definition lo (c : byte) : ascii := fmt.digit (N.land (Byte.to_N c) 15).

(** *** Concrete headers *)

Definition addrAA : list byte := repeat xaa 20.
Definition addrBB : list byte := [xbb; x01].

(** Example 1 of the specification. *)
Definition hdr1 : Header.t := {|
  Header.BaseHeader := {| BaseHeader.Height := 5; BaseHeader.Time := 0;
                          BaseHeader.ChainID := "rollkit-test" |};
  Header.Version := {| Version.Block := 0; Version.App := 0 |};
  Header.LastHeaderHash := []; Header.LastCommitHash := [];
  Header.DataHash := []; Header.ConsensusHash := []; Header.AppHash := [];
  Header.ValidatorHash := []; Header.LastResultsHash := [];
  Header.ProposerAddress := addrAA
|}.

(** A header of another chain, another version and another predecessor,
    signed by the same proposer. *)
Definition hdr2 : Header.t := {|
  Header.BaseHeader := {| BaseHeader.Height := 3;
                          BaseHeader.Time := 1700000000123456789;
                          BaseHeader.ChainID := "other-chain" |};
  Header.Version := {| Version.Block := 11; Version.App := 2 |};
  Header.LastHeaderHash := [x01; x02]; Header.LastCommitHash := [x03];
  Header.DataHash := [x04]; Header.ConsensusHash := []; Header.AppHash := [];
  Header.ValidatorHash := [x05]; Header.LastResultsHash := [];
  Header.ProposerAddress := addrAA
|}.

(** A header signed by somebody else. *)
Definition hdr3 : Header.t := {|
  Header.BaseHeader := {| BaseHeader.Height := 6; BaseHeader.Time := 1;
                          BaseHeader.ChainID := "rollkit-test" |};
  Header.Version := {| Version.Block := 0; Version.App := 0 |};
  Header.LastHeaderHash := []; Header.LastCommitHash := [];
  Header.DataHash := []; Header.ConsensusHash := []; Header.AppHash := [];
  Header.ValidatorHash := []; Header.LastResultsHash := [];
  Header.ProposerAddress := addrBB
|}.

(** A header whose height does not fit in an [int64]. *)
Definition hdr_high : Header.t := {|
  Header.BaseHeader := {| BaseHeader.Height := 2 ^ 63; BaseHeader.Time := 0;
                          BaseHeader.ChainID := "rollkit-test" |};
  Header.Version := {| Version.Block := 0; Version.App := 0 |};
  Header.LastHeaderHash := []; Header.LastCommitHash := [];
  Header.DataHash := []; Header.ConsensusHash := []; Header.AppHash := [];
  Header.ValidatorHash := []; Header.LastResultsHash := [];
  Header.ProposerAddress := addrAA
|}.

Definition store123 : gmap Go.loc Header.t :=
  {[ 1%positive := hdr1; 2%positive := hdr2; 3%positive := hdr3 ]}.

Definition store_high : gmap Go.loc Header.t := {[ 1%positive := hdr_high ]}.

(** Stand-ins for the two functions the encoder takes from outside, for
    running it on the concrete headers: a digest that is the data hash,
    and sign-bytes made of the vote's height (a sign byte, the magnitude
    in unary, a terminator) followed by the block hash. *)
Definition sample_hashOf (h : Header.t) : Hash := Header.DataHash h.

Definition unary (z : Z) : list byte :=
  (if z <? 0 then x02 else x03) :: repeat x01 (Z.abs_nat z) ++ [x00].

Definition sample_VoteSignBytes (chainID : string) (v : cmtproto.Vote.t)
  : list byte :=
  unary (cmtproto.Vote.Height v)
    ++ cmtproto.BlockID.Hash (cmtproto.Vote.BlockID v).

(** *** Further concrete headers *)

(** Example 1 again, at another version and with other predecessor and
    commit hashes: it agrees with [hdr1] on chain ID, height, time, data
    hash and proposer. *)
Definition hdr4 : Header.t := {|
  Header.BaseHeader := Header.BaseHeader hdr1;
  Header.Version := {| Version.Block := 7; Version.App := 9 |};
  Header.LastHeaderHash := [x0a; x0b]; Header.LastCommitHash := [x0c];
  Header.DataHash := Header.DataHash hdr1;
  Header.ConsensusHash := [x0d]; Header.AppHash := [x0e];
  Header.ValidatorHash := [x0f]; Header.LastResultsHash := [x10];
  Header.ProposerAddress := addrAA
|}.

(** A header whose time does not fit in an [int64]: 2^63 + 5. *)
Definition hdr_late : Header.t := {|
  Header.BaseHeader := {| BaseHeader.Height := 1;
                          BaseHeader.Time := 2 ^ 63 + 5;
                          BaseHeader.ChainID := "rollkit-test" |};
  Header.Version := {| Version.Block := 0; Version.App := 0 |};
  Header.LastHeaderHash := []; Header.LastCommitHash := [];
  Header.DataHash := []; Header.ConsensusHash := []; Header.AppHash := [];
  Header.ValidatorHash := []; Header.LastResultsHash := [];
  Header.ProposerAddress := addrAA
|}.

Definition store_more : gmap Go.loc Header.t :=
  {[ 1%positive := hdr1; 4%positive := hdr4; 5%positive := hdr_late ]}.

(** Two headers without a proposer address. *)
Definition store_zero : gmap Go.loc Header.t :=
  {[ 1%positive := Header.zero; 2%positive := Header.zero ]}.

(** ** Facts about the Go values *)

Section Int64.

Lemma int64_small (x : Z) : - 2 ^ 63 <= x < 2 ^ 63 -> int64 x = x.
Proof.
  intros Hx. unfold int64.
  rewrite Z.mod_small; lia.
Qed.

Lemma int64_high (x : Z) : 2 ^ 63 <= x < 2 ^ 64 -> int64 x = x - 2 ^ 64.
Proof.
  intros Hx. unfold int64.
  replace (x + 2 ^ 63) with ((x - 2 ^ 63) + 1 * 2 ^ 64) by lia.
  rewrite Z.mod_add by lia.
  rewrite Z.mod_small; lia.
Qed.

Lemma int64_range (x : Z) : - 2 ^ 63 <= int64 x < 2 ^ 63.
Proof.
  unfold int64.
  pose proof (Z.mod_pos_bound (x + 2 ^ 63) (2 ^ 64)). lia.
Qed.

(** The conversion loses nothing on a [uint64]. *)
Lemma int64_inj (x y : Z) :
  uint64_ok x -> uint64_ok y -> int64 x = int64 y -> x = y.
Proof.
  unfold uint64_ok. intros Hx Hy.
  destruct (Z_lt_ge_dec x (2 ^ 63)), (Z_lt_ge_dec y (2 ^ 63)).
  - rewrite !int64_small by lia. done.
  - rewrite (int64_small x), (int64_high y) by lia. lia.
  - rewrite (int64_high x), (int64_small y) by lia. lia.
  - rewrite !int64_high by lia. lia.
Qed.

End Int64.

Section Bytes.

Lemma bytes_Equal_true (a b : list byte) : bytes.Equal a b = true <-> a = b.
Proof.
  revert b. induction a as [|x a IH]; intros [|y b]; simpl; split;
    try done.
  - intros [Hxy Hab]%andb_prop.
    apply Byte.byte_dec_bl in Hxy. apply IH in Hab. by subst.
  - intros [= -> ->]. apply andb_true_intro. split.
    + by apply Byte.byte_dec_lb.
    + by apply IH.
Qed.

Lemma bytes_Equal_false (a b : list byte) : bytes.Equal a b = false <-> a <> b.
Proof.
  rewrite <- bytes_Equal_true. destruct (bytes.Equal a b); split; done.
Qed.

End Bytes.

Section Fmt.

(** Every byte is recovered from its two characters, and no character of
    the text is a closing parenthesis. *)
Lemma byte_of_digits (c : byte) : unfmt.byte_of (hi c) (lo c) = Some c.
Proof. destruct c; vm_compute; reflexivity. Qed.

Lemma digits_inj (c d : byte) : hi c = hi d -> lo c = lo d -> c = d.
Proof.
  intros Hh Hl.
  pose proof (byte_of_digits c) as Hc. pose proof (byte_of_digits d) as Hd.
  rewrite Hh, Hl in Hc. congruence.
Qed.

Lemma hi_not_paren (c : byte) : hi c <> ")"%char.
Proof. destruct c; vm_compute; discriminate. Qed.

Lemma X_cons (c : byte) (rest : list byte) :
  fmt.X (c :: rest) = String (hi c) (String (lo c) (fmt.X rest)).
Proof. reflexivity. Qed.

(** Two texts of [%X], each followed by a closing parenthesis, agree only
    when the byte slices and what follows agree. *)
Lemma X_paren_inj (a a' : list byte) (s s' : string) :
  (fmt.X a ++ String ")" s)%string = (fmt.X a' ++ String ")" s')%string ->
  a = a' /\ s = s'.
Proof.
  revert a'. induction a as [|c a IH]; intros [|c' a'].
  - simpl. intros [= ->]. done.
  - rewrite X_cons. simpl. intros [= Hp _]. symmetry in Hp.
    by apply hi_not_paren in Hp.
  - rewrite X_cons. simpl. intros [= Hp _]. by apply hi_not_paren in Hp.
  - rewrite !X_cons. simpl. intros [= Hh Hl Hrest].
    apply IH in Hrest as [-> ->].
    by rewrite (digits_inj c c' Hh Hl).
Qed.

Lemma X_inj (a a' : list byte) : fmt.X a = fmt.X a' -> a = a'.
Proof.
  intros H.
  destruct (X_paren_inj a a' EmptyString EmptyString) as [-> _]; [|done].
  by rewrite H.
Qed.

(** The error text of [Verify] determines both addresses. *)
Lemma expected_got_inj (a b a' b' : list byte) :
  Header.expected_got a b = Header.expected_got a' b' -> a = a' /\ b = b'.
Proof.
  unfold Header.expected_got. simpl. intros H.
  injection H as H.
  apply X_paren_inj in H as [-> H].
  injection H as H.
  apply X_paren_inj in H as [-> _]. done.
Qed.

End Fmt.

Section Time.

(** [time.Unix(0, n)] denotes the instant [n] nanoseconds from the epoch,
    for every [int64] [n], with the nanosecond part normalised. *)
Lemma Unix_instant (n : Z) :
  - 2 ^ 63 <= n < 2 ^ 63 ->
  time.UnixNano (time.Unix 0 n) = n
  /\ 0 <= time.nsec (time.Unix 0 n) < 10 ^ 9
  /\ time.loc (time.Unix 0 n) = time.Local.
Proof.
  intros Hn. unfold time.Unix, time.UnixNano.
  pose proof (Z.quot_rem' n (10 ^ 9)) as Hqr.
  set (q := n ÷ 10 ^ 9) in *. set (r := Z.rem n (10 ^ 9)) in *.
  assert (Hr : - 10 ^ 9 < r < 10 ^ 9).
  { subst r. destruct (Z_le_gt_dec 0 n).
    - pose proof (Z.rem_bound_pos n (10 ^ 9)). lia.
    - pose proof (Z.rem_bound_pos (- n) (10 ^ 9)) as Hb.
      rewrite Z.rem_opp_l' in Hb. lia. }
  assert (Hq : - 2 ^ 62 < q < 2 ^ 62) by lia.
  destruct ((n <? 0) || (n >=? 10 ^ 9)) eqn:E.
  - rewrite (int64_small (0 + q)) by lia.
    replace (n - q * 10 ^ 9) with r by lia.
    destruct (r <? 0) eqn:Er.
    + rewrite int64_small by lia. simpl.
      apply Z.ltb_lt in Er. repeat split; lia.
    + simpl. apply Z.ltb_ge in Er. repeat split; lia.
  - apply orb_false_elim in E as [E1 E2].
    apply Z.ltb_ge in E1. rewrite Z.geb_leb in E2. apply Z.leb_gt in E2.
    simpl. repeat split; lia.
Qed.

End Time.

(** ** Running the methods *)

Section Run.

Implicit Types (s : gmap Go.loc Header.t) (l : Go.loc) (h : Header.t).

Lemma load_Some s l h : s !! l = Some h -> Go.load (Some l) s = (Go.Ret h, s).
Proof. intros H. unfold Go.load. by rewrite H. Qed.

Lemma load_nil s : Go.load (Obj := Header.t) Go.nil s = (Go.Panic, s).
Proof. reflexivity. Qed.

Lemma bind_Ret {A B} (m : Header.M A) (k : A -> Header.M B) s a s' :
  m s = (Go.Ret a, s') -> Go.bind m k s = k a s'.
Proof. intros H. unfold Go.bind. by rewrite H. Qed.

Lemma Verify_run s l l' h u :
  s !! l = Some h -> s !! l' = Some u ->
  Header.Verify (Some l) (Some l') s =
    (Go.Ret (if bytes.Equal (Header.ProposerAddress u) (Header.ProposerAddress h)
             then None
             else Some (VerifyError
                          (Header.expected_got (Header.ProposerAddress h)
                                               (Header.ProposerAddress u)))), s).
Proof.
  intros Hh Hu. unfold Header.Verify.
  rewrite (bind_Ret _ _ _ _ _ (load_Some _ _ _ Hu)).
  rewrite (bind_Ret _ _ _ _ _ (load_Some _ _ _ Hh)).
  by destruct (bytes.Equal _ _).
Qed.

Lemma ValidateBasic_run s l h :
  s !! l = Some h ->
  Header.ValidateBasic (Some l) s =
    (Go.Ret (match Header.ProposerAddress h with
             | [] => Some ErrNoProposerAddress
             | _ :: _ => None
             end), s).
Proof.
  intros Hh. unfold Header.ValidateBasic.
  rewrite (bind_Ret _ _ _ _ _ (load_Some _ _ _ Hh)).
  by destruct (Header.ProposerAddress h).
Qed.

Lemma Height_run s l h :
  s !! l = Some h ->
  Header.Height (Some l) s =
    (Go.Ret (BaseHeader.Height (Header.BaseHeader h)), s).
Proof.
  intros Hh. unfold Header.Height.
  by rewrite (bind_Ret _ _ _ _ _ (load_Some _ _ _ Hh)).
Qed.

Lemma ChainID_run s l h :
  s !! l = Some h ->
  Header.ChainID (Some l) s =
    (Go.Ret (BaseHeader.ChainID (Header.BaseHeader h)), s).
Proof.
  intros Hh. unfold Header.ChainID.
  by rewrite (bind_Ret _ _ _ _ _ (load_Some _ _ _ Hh)).
Qed.

Lemma Time_run s l h :
  s !! l = Some h ->
  Header.Time (Some l) s =
    (Go.Ret (time.Unix 0 (int64 (BaseHeader.Time (Header.BaseHeader h)))), s).
Proof.
  intros Hh. unfold Header.Time.
  by rewrite (bind_Ret _ _ _ _ _ (load_Some _ _ _ Hh)).
Qed.

(** The accessors that read a field are not nil-safe. *)
Lemma Height_nil_panics s : Header.Height Go.nil s = (Go.Panic, s).
Proof. reflexivity. Qed.

End Run.

(** ** Read-only computations *)

Section Frame.

Lemma read_only_ret {A} (a : A) : read_only (Go.ret a).
Proof. by intros s. Qed.

Lemma read_only_load (p : Go.ptr) : read_only (Go.load p).
Proof.
  intros s. unfold Go.load.
  destruct p as [l|]; [|done]. by destruct (s !! l).
Qed.

Lemma read_only_bind {A B} (m : Header.M A) (k : A -> Header.M B) :
  read_only m -> (forall a, read_only (k a)) -> read_only (Go.bind m k).
Proof.
  intros Hm Hk s. unfold Go.bind.
  specialize (Hm s). destruct (m s) as [[a|] s']; simpl in Hm; subst s'.
  - apply Hk.
  - done.
Qed.

Lemma read_only_if {A} (b : bool) (m1 m2 : Header.M A) :
  read_only m1 -> read_only m2 -> read_only (if b then m1 else m2).
Proof. by destruct b. Qed.

End Frame.

Create HintDb frame.
#[export] Hint Resolve read_only_ret read_only_load read_only_if : frame.
#[export] Hint Extern 2 (read_only (Go.bind _ _)) =>
  apply read_only_bind; [|intros ?] : frame.

(** ** Verified properties: validation and verification *)

Section Validation.

Implicit Types (s : gmap Go.loc Header.t) (l : Go.loc) (h : Header.t).

(** C1. [Verify] on a trusted header [t] and a candidate [c] fails with a
    [VerifyError] exactly when the two proposer addresses differ as byte
    sequences and returns no error when they are equal, whatever the
    other fields hold; the error text is
    "expected proposer (<trusted, hex>) got (<candidate, hex>)", and both
    addresses can be read back from it. *)
Theorem Verify_proposer_mismatch s (lt lc : Go.loc) (t c : Header.t) :
  s !! lt = Some t -> s !! lc = Some c ->
  ((exists reason,
       Header.Verify (Some lt) (Some lc) s
       = (Go.Ret (Some (VerifyError reason)), s))
     <-> Header.ProposerAddress t <> Header.ProposerAddress c)
  /\ (Header.ProposerAddress t = Header.ProposerAddress c ->
      Header.Verify (Some lt) (Some lc) s = (Go.Ret None, s))
  /\ (Header.ProposerAddress t <> Header.ProposerAddress c ->
      Header.Verify (Some lt) (Some lc) s =
        (Go.Ret (Some (VerifyError
           ("expected proposer (" ++ fmt.X (Header.ProposerAddress t)
              ++ ") got (" ++ fmt.X (Header.ProposerAddress c) ++ ")")%string)),
         s))
  /\ (forall a b : list byte,
        Header.expected_got a b =
          Header.expected_got (Header.ProposerAddress t)
                              (Header.ProposerAddress c) ->
        a = Header.ProposerAddress t /\ b = Header.ProposerAddress c).
Proof.
  intros Ht Hc. rewrite (Verify_run _ _ _ _ _ Ht Hc).
  split; [|split; [|split]].
  - destruct (bytes.Equal _ _) eqn:E.
    + apply bytes_Equal_true in E. split.
      * by intros [reason [=]].
      * intros Hne. by destruct Hne.
    + apply bytes_Equal_false in E. split.
      * intros _ Heq. by apply E.
      * intros _. eauto.
  - intros Heq. symmetry in Heq. apply bytes_Equal_true in Heq.
    by rewrite Heq.
  - intros Hne.
    assert (E : bytes.Equal (Header.ProposerAddress c)
                            (Header.ProposerAddress t) = false).
    { apply bytes_Equal_false. intros Heq. by apply Hne. }
    by rewrite E.
  - intros a b Hab. by apply expected_got_inj.
Qed.

Lemma Verify_proposer_mismatch_witness :
  store123 !! 1%positive = Some hdr1
  /\ store123 !! 3%positive = Some hdr3
  /\ Header.Verify (Some 1%positive) (Some 3%positive) store123 =
       (Go.Ret (Some (VerifyError
          "expected proposer (AAAAAAAAAAAAAAAAAAAAAAAAAAAAAAAAAAAAAAAA) got (BB01)")),
        store123).
Proof.
  split; [reflexivity|]. split; [reflexivity|].
  destruct (Verify_proposer_mismatch store123 1%positive 3%positive hdr1 hdr3
              eq_refl eq_refl) as (_ & _ & Hfail & _).
  apply Hfail. discriminate.
Defined.

(** C2. [ValidateBasic] fails with [ErrNoProposerAddress] exactly when
    the proposer address has length zero, and returns no error for every
    non-empty proposer address, whatever the other fields hold. *)
Theorem ValidateBasic_missing_proposer s l h :
  s !! l = Some h ->
  (Header.ValidateBasic (Some l) s = (Go.Ret (Some ErrNoProposerAddress), s)
     <-> length (Header.ProposerAddress h) = 0%nat)
  /\ (length (Header.ProposerAddress h) <> 0%nat ->
      Header.ValidateBasic (Some l) s = (Go.Ret None, s)).
Proof.
  intros Hh. rewrite (ValidateBasic_run _ _ _ Hh).
  destruct (Header.ProposerAddress h); simpl; repeat split; done.
Qed.

Lemma ValidateBasic_missing_proposer_witness :
  store123 !! 1%positive = Some hdr1
  /\ Header.ValidateBasic (Some 1%positive) store123 = (Go.Ret None, store123).
Proof.
  split; [reflexivity|].
  destruct (ValidateBasic_missing_proposer store123 1%positive hdr1 eq_refl)
    as [_ Hok].
  apply Hok. discriminate.
Defined.

(** Example 2 of the specification: the same header without a proposer
    address is rejected. *)
Lemma ValidateBasic_empty_proposer :
  (Header.ValidateBasic (Some 1%positive)
     {[ 1%positive := {|
          Header.BaseHeader := Header.BaseHeader hdr1;
          Header.Version := Header.Version hdr1;
          Header.LastHeaderHash := []; Header.LastCommitHash := [];
          Header.DataHash := []; Header.ConsensusHash := [];
          Header.AppHash := []; Header.ValidatorHash := [];
          Header.LastResultsHash := []; Header.ProposerAddress := [] |} ]}).1
  = Go.Ret (Some ErrNoProposerAddress).
Proof. reflexivity. Qed.

(** C9. [Validate] returns what [ValidateBasic] returns, on every
    receiver and in every store: the same error, the same success, and
    the same panic on a nil receiver. *)
Theorem Validate_is_ValidateBasic (p : Go.ptr) s :
  Header.Validate p s = Header.ValidateBasic p s.
Proof. reflexivity. Qed.

(** C10. [Verify] checks neither chain identity nor version nor the
    link to the predecessor: whenever the two proposer addresses are
    equal it returns no error, and there are a trusted header and a
    candidate with different chain IDs, versions and last-header hashes
    that it accepts. *)
Theorem Verify_ignores_chain_and_version :
  (forall s (lt lc : Go.loc) (t c : Header.t),
      s !! lt = Some t -> s !! lc = Some c ->
      Header.ProposerAddress t = Header.ProposerAddress c ->
      Header.Verify (Some lt) (Some lc) s = (Go.Ret None, s))
  /\ (exists s (lt lc : Go.loc) (t c : Header.t),
        s !! lt = Some t /\ s !! lc = Some c
        /\ BaseHeader.ChainID (Header.BaseHeader t)
             <> BaseHeader.ChainID (Header.BaseHeader c)
        /\ Header.Version t <> Header.Version c
        /\ Header.LastHeaderHash t <> Header.LastHeaderHash c
        /\ Header.Verify (Some lt) (Some lc) s = (Go.Ret None, s)).
Proof.
  split.
  - intros s lt lc t c Ht Hc Heq.
    rewrite (Verify_run _ _ _ _ _ Ht Hc).
    symmetry in Heq. apply bytes_Equal_true in Heq. by rewrite Heq.
  - exists store123, 1%positive, 2%positive, hdr1, hdr2.
    repeat split; done.
Qed.

End Validation.

(** ** Verified properties: absence test and accessors *)

Section Accessors.

Implicit Types (s : gmap Go.loc Header.t) (l : Go.loc) (h : Header.t).

(** C7. [IsZero] can be called on a nil receiver: it returns [true]
    there without a panic; on every receiver it returns, and the answer
    is [true] exactly for nil.  In particular it answers [false] for the
    all-zero header that [New] has just allocated. *)
Theorem IsZero_iff_nil :
  (forall s, Header.IsZero Go.nil s = (Go.Ret true, s))
  /\ (forall (p : Go.ptr) s,
        exists b, Header.IsZero p s = (Go.Ret b, s) /\ (b = true <-> p = Go.nil))
  /\ (forall s l, Header.IsZero (Some l) s = (Go.Ret false, s))
  /\ (forall s (p : Go.ptr), exists l s',
        Header.New p s = (Go.Ret (Some l), s')
        /\ s' !! l = Some Header.zero
        /\ Header.IsZero (Some l) s' = (Go.Ret false, s')).
Proof.
  repeat split.
  - intros p s. destruct p as [l|].
    + exists false. repeat split; done.
    + exists true. repeat split; done.
  - intros s p. eexists _, _. split; [reflexivity|].
    split; [|reflexivity]. apply lookup_insert_eq.
Qed.

(** C4. When the header's [Time] fits in the non-negative range of a
    signed 64-bit integer, the timestamp returned by [Time()] denotes
    exactly that many nanoseconds after the Unix epoch: whole seconds
    and a nanosecond part in [0, 10^9) that add up to the field. *)
Theorem Time_is_epoch_plus_nanoseconds s l h :
  s !! l = Some h ->
  0 <= BaseHeader.Time (Header.BaseHeader h) < 2 ^ 63 ->
  exists T : time.Time,
    Header.Time (Some l) s = (Go.Ret T, s)
    /\ time.sec T * 10 ^ 9 + time.nsec T
         = BaseHeader.Time (Header.BaseHeader h)
    /\ 0 <= time.nsec T < 10 ^ 9.
Proof.
  intros Hh Ht. eexists. split; [by apply Time_run|].
  rewrite int64_small by lia.
  destruct (Unix_instant (BaseHeader.Time (Header.BaseHeader h)))
    as (Hn & Hr & _); [lia|].
  split; [exact Hn | exact Hr].
Qed.

Lemma Time_is_epoch_plus_nanoseconds_witness :
  store123 !! 2%positive = Some hdr2
  /\ 0 <= 1700000000123456789 < 2 ^ 63
  /\ exists T : time.Time,
       Header.Time (Some 2%positive) store123 = (Go.Ret T, store123)
       /\ time.sec T * 10 ^ 9 + time.nsec T = 1700000000123456789
       /\ 0 <= time.nsec T < 10 ^ 9.
Proof.
  split; [reflexivity|]. split; [lia|].
  apply (Time_is_epoch_plus_nanoseconds store123 2%positive hdr2 eq_refl).
  simpl. lia.
Defined.

(** Outside that range the field is reinterpreted as a negative
    [int64], and the timestamp lies before the epoch. *)
Lemma Time_beyond_int64 s l h :
  s !! l = Some h ->
  2 ^ 63 <= BaseHeader.Time (Header.BaseHeader h) < 2 ^ 64 ->
  exists T : time.Time,
    Header.Time (Some l) s = (Go.Ret T, s)
    /\ time.UnixNano T = BaseHeader.Time (Header.BaseHeader h) - 2 ^ 64.
Proof.
  intros Hh Ht. eexists. split; [by apply Time_run|].
  rewrite int64_high by lia.
  apply Unix_instant. lia.
Qed.

End Accessors.

(** ** Verified properties: no method writes to the store *)

Section FrameMethods.

Variable hashOf : Header.t -> Hash.
Variable VoteSignBytes : string -> cmtproto.Vote.t -> list byte.

Lemma read_only_Height h : read_only (Header.Height h).
Proof. unfold Header.Height. auto with frame. Qed.

Lemma read_only_ChainID h : read_only (Header.ChainID h).
Proof. unfold Header.ChainID. auto with frame. Qed.

Lemma read_only_Time h : read_only (Header.Time h).
Proof. unfold Header.Time. auto with frame. Qed.

Lemma read_only_Hash h : read_only (Header.Hash hashOf h).
Proof. unfold Header.Hash. auto with frame. Qed.

Lemma read_only_vote h : read_only (Header.MakeCometBFTVote_vote hashOf h).
Proof.
  unfold Header.MakeCometBFTVote_vote.
  pose proof read_only_Height. pose proof read_only_Time.
  pose proof read_only_Hash. auto 8 with frame.
Qed.

(** C8. No operation writes to a header: [ValidateBasic], [Validate],
    [Verify], [MakeCometBFTVote], [IsZero] and the accessors [ChainID],
    [Height], [Time], [LastHeader] leave the whole store, hence every
    field of the receiver and of the candidate, as they found it,
    whether they return a value, return an error or panic. *)
Theorem methods_do_not_mutate (h c : Go.ptr) :
  read_only (Header.ValidateBasic h)
  /\ read_only (Header.Validate h)
  /\ read_only (Header.Verify h c)
  /\ read_only (Header.MakeCometBFTVote hashOf VoteSignBytes h)
  /\ read_only (Header.ChainID h)
  /\ read_only (Header.Height h)
  /\ read_only (Header.Time h)
  /\ read_only (Header.LastHeader h)
  /\ read_only (Header.IsZero h).
Proof.
  pose proof read_only_vote. pose proof read_only_ChainID.
  unfold Header.Validate, Header.ValidateBasic, Header.Verify,
    Header.MakeCometBFTVote, Header.LastHeader, Header.IsZero.
  repeat split; auto using read_only_Height, read_only_Time with frame.
Qed.

(** [New] is the one method that changes the store: it adds an object and
    leaves the existing ones alone. *)
Lemma New_allocates (p : Go.ptr) (s : gmap Go.loc Header.t) (l : Go.loc) :
  is_Some (s !! l) -> (Header.New p s).2 !! l = s !! l.
Proof.
  intros Hl. unfold Header.New, Go.new. simpl.
  apply lookup_insert_ne. intros Heq.
  apply elem_of_dom in Hl. rewrite <- Heq in Hl.
  by apply is_fresh in Hl.
Qed.

End FrameMethods.

(** ** Verified properties: the consensus vote *)

Section VoteEncoding.

Variable hashOf : Header.t -> Hash.
Variable VoteSignBytes : string -> cmtproto.Vote.t -> list byte.

Implicit Types (s : gmap Go.loc Header.t) (l : Go.loc) (h : Header.t).

Lemma Hash_run s l h :
  s !! l = Some h -> Header.Hash hashOf (Some l) s = (Go.Ret (hashOf h), s).
Proof.
  intros Hh. unfold Header.Hash.
  by rewrite (bind_Ret _ _ _ _ _ (load_Some _ _ _ Hh)).
Qed.

Lemma MakeCometBFTVote_vote_run s l h :
  s !! l = Some h ->
  Header.MakeCometBFTVote_vote hashOf (Some l) s =
    (Go.Ret {|
       cmtproto.Vote.Type_ := cmtproto.PrecommitType;
       cmtproto.Vote.Height := int64 (BaseHeader.Height (Header.BaseHeader h));
       cmtproto.Vote.Round := 0;
       cmtproto.Vote.BlockID := {|
         cmtproto.BlockID.Hash := hashOf h;
         cmtproto.BlockID.PartSetHeader := cmtproto.PartSetHeader.zero |};
       cmtproto.Vote.Timestamp :=
         time.Unix 0 (int64 (BaseHeader.Time (Header.BaseHeader h)));
       cmtproto.Vote.ValidatorAddress := Header.ProposerAddress h;
       cmtproto.Vote.ValidatorIndex := 0
     |}, s).
Proof.
  intros Hh. unfold Header.MakeCometBFTVote_vote.
  rewrite (bind_Ret _ _ _ _ _ (Height_run _ _ _ Hh)).
  rewrite (bind_Ret _ _ _ _ _ (Hash_run _ _ _ Hh)).
  rewrite (bind_Ret _ _ _ _ _ (Time_run _ _ _ Hh)).
  by rewrite (bind_Ret _ _ _ _ _ (load_Some _ _ _ Hh)).
Qed.

Lemma MakeCometBFTVote_run s l h :
  s !! l = Some h ->
  exists v,
    Header.MakeCometBFTVote_vote hashOf (Some l) s = (Go.Ret v, s)
    /\ Header.MakeCometBFTVote hashOf VoteSignBytes (Some l) s =
         (Go.Ret (VoteSignBytes (BaseHeader.ChainID (Header.BaseHeader h)) v), s).
Proof.
  intros Hh. eexists. split; [by apply MakeCometBFTVote_vote_run|].
  unfold Header.MakeCometBFTVote.
  rewrite (bind_Ret _ _ _ _ _ (MakeCometBFTVote_vote_run _ _ _ Hh)).
  by rewrite (bind_Ret _ _ _ _ _ (ChainID_run _ _ _ Hh)).
Qed.

(** C3, amended. [MakeCometBFTVote] returns the sign-bytes, under the
    header's chain ID, of the vote with type precommit, height the header
    height converted to [int64], round 0, block identifier made of the
    header's hash and the empty part-set header, timestamp the header's
    time, validator address the proposer address and validator index 0.
    The converted height is the header height whenever that is below
    2^63. *)
Theorem MakeCometBFTVote_builds_precommit s l h :
  s !! l = Some h ->
  exists (height : Z) (hash : list byte) (timestamp : time.Time)
         (chainID : string),
    Header.Height (Some l) s = (Go.Ret height, s)
    /\ Header.Hash hashOf (Some l) s = (Go.Ret hash, s)
    /\ Header.Time (Some l) s = (Go.Ret timestamp, s)
    /\ Header.ChainID (Some l) s = (Go.Ret chainID, s)
    /\ Header.MakeCometBFTVote hashOf VoteSignBytes (Some l) s =
         (Go.Ret (VoteSignBytes chainID {|
            cmtproto.Vote.Type_ := cmtproto.PrecommitType;
            cmtproto.Vote.Height := int64 height;
            cmtproto.Vote.Round := 0;
            cmtproto.Vote.BlockID := {|
              cmtproto.BlockID.Hash := hash;
              cmtproto.BlockID.PartSetHeader := {|
                cmtproto.PartSetHeader.Total := 0;
                cmtproto.PartSetHeader.Hash := [] |} |};
            cmtproto.Vote.Timestamp := timestamp;
            cmtproto.Vote.ValidatorAddress := Header.ProposerAddress h;
            cmtproto.Vote.ValidatorIndex := 0
          |}), s)
    /\ (0 <= height < 2 ^ 63 -> int64 height = height).
Proof.
  intros Hh.
  exists (BaseHeader.Height (Header.BaseHeader h)), (hashOf h),
    (time.Unix 0 (int64 (BaseHeader.Time (Header.BaseHeader h)))),
    (BaseHeader.ChainID (Header.BaseHeader h)).
  split; [by apply Height_run|].
  split; [by apply Hash_run|].
  split; [by apply Time_run|].
  split; [by apply ChainID_run|].
  split.
  - destruct (MakeCometBFTVote_run s l h Hh) as (v & Hv & Hbytes).
    rewrite (MakeCometBFTVote_vote_run _ _ _ Hh) in Hv.
    injection Hv as <-. exact Hbytes.
  - intros Hr. apply int64_small. lia.
Qed.

(** The bytes depend on the header through its chain ID, height, time,
    hash and proposer address only. *)
Lemma MakeCometBFTVote_depends_on s1 s2 l1 l2 h1 h2 :
  s1 !! l1 = Some h1 -> s2 !! l2 = Some h2 ->
  BaseHeader.ChainID (Header.BaseHeader h1)
    = BaseHeader.ChainID (Header.BaseHeader h2) ->
  BaseHeader.Height (Header.BaseHeader h1)
    = BaseHeader.Height (Header.BaseHeader h2) ->
  BaseHeader.Time (Header.BaseHeader h1)
    = BaseHeader.Time (Header.BaseHeader h2) ->
  hashOf h1 = hashOf h2 ->
  Header.ProposerAddress h1 = Header.ProposerAddress h2 ->
  (Header.MakeCometBFTVote hashOf VoteSignBytes (Some l1) s1).1
  = (Header.MakeCometBFTVote hashOf VoteSignBytes (Some l2) s2).1.
Proof.
  intros H1 H2 Hc Hh Ht Hhash Hp.
  destruct (MakeCometBFTVote_run s1 l1 h1 H1) as (v1 & Hv1 & ->).
  destruct (MakeCometBFTVote_run s2 l2 h2 H2) as (v2 & Hv2 & ->).
  rewrite (MakeCometBFTVote_vote_run _ _ _ H1) in Hv1.
  rewrite (MakeCometBFTVote_vote_run _ _ _ H2) in Hv2.
  simpl. congruence.
Qed.

(** The encoder is a function of the header: equal headers, wherever they
    are stored, give the same bytes. *)
Lemma MakeCometBFTVote_deterministic s1 s2 l1 l2 h :
  s1 !! l1 = Some h -> s2 !! l2 = Some h ->
  (Header.MakeCometBFTVote hashOf VoteSignBytes (Some l1) s1).1
  = (Header.MakeCometBFTVote hashOf VoteSignBytes (Some l2) s2).1.
Proof.
  intros H1 H2. by apply (MakeCometBFTVote_depends_on s1 s2 l1 l2 h h).
Qed.

(** What the sensitivity of the bytes rests on: an encoder that keeps
    apart votes of different height or different block hash does so for
    the headers they are built from. *)
Section Sensitivity.

Hypothesis VoteSignBytes_separates :
  forall c1 c2 v1 v2,
    VoteSignBytes c1 v1 = VoteSignBytes c2 v2 ->
    cmtproto.Vote.Height v1 = cmtproto.Vote.Height v2
    /\ cmtproto.BlockID.Hash (cmtproto.Vote.BlockID v1)
       = cmtproto.BlockID.Hash (cmtproto.Vote.BlockID v2).

Lemma MakeCometBFTVote_separates s l1 l2 h1 h2 :
  s !! l1 = Some h1 -> s !! l2 = Some h2 ->
  uint64_ok (BaseHeader.Height (Header.BaseHeader h1)) ->
  uint64_ok (BaseHeader.Height (Header.BaseHeader h2)) ->
  BaseHeader.Height (Header.BaseHeader h1)
    <> BaseHeader.Height (Header.BaseHeader h2)
  \/ hashOf h1 <> hashOf h2 ->
  (Header.MakeCometBFTVote hashOf VoteSignBytes (Some l1) s).1
  <> (Header.MakeCometBFTVote hashOf VoteSignBytes (Some l2) s).1.
Proof.
  intros H1 H2 Hu1 Hu2 Hdiff.
  destruct (MakeCometBFTVote_run s l1 h1 H1) as (v1 & Hv1 & ->).
  destruct (MakeCometBFTVote_run s l2 h2 H2) as (v2 & Hv2 & ->).
  rewrite (MakeCometBFTVote_vote_run _ _ _ H1) in Hv1.
  rewrite (MakeCometBFTVote_vote_run _ _ _ H2) in Hv2.
  injection Hv1 as <-. injection Hv2 as <-.
  simpl. intros [= Heq].
  apply VoteSignBytes_separates in Heq as [Hh Hb]. simpl in Hh, Hb.
  destruct Hdiff as [Hd|Hd]; [|done].
  by apply Hd, int64_inj.
Qed.

End Sensitivity.

End VoteEncoding.

(** The stand-in encoder keeps votes of different height or different
    block hash apart, so the assumption of [MakeCometBFTVote_separates]
    can be met. *)
Lemma ones_terminated_inj (n m : nat) (r r' : list byte) :
  repeat x01 n ++ x00 :: r = repeat x01 m ++ x00 :: r' -> n = m /\ r = r'.
Proof.
  revert m. induction n as [|n IH]; intros [|m]; simpl; intros [= H]; auto.
  apply IH in H as [-> ->]. done.
Qed.

Lemma unary_inj (z z' : Z) (r r' : list byte) :
  unary z ++ r = unary z' ++ r' -> z = z' /\ r = r'.
Proof.
  unfold unary. simpl. rewrite <- !app_assoc. simpl.
  intros [= Hsign Hrest].
  apply ones_terminated_inj in Hrest as [Habs ->].
  split; [|done].
  destruct (Z.ltb_spec z 0), (Z.ltb_spec z' 0); try discriminate; lia.
Qed.

Lemma sample_VoteSignBytes_separates c1 c2 v1 v2 :
  sample_VoteSignBytes c1 v1 = sample_VoteSignBytes c2 v2 ->
  cmtproto.Vote.Height v1 = cmtproto.Vote.Height v2
  /\ cmtproto.BlockID.Hash (cmtproto.Vote.BlockID v1)
     = cmtproto.BlockID.Hash (cmtproto.Vote.BlockID v2).
Proof. apply unary_inj. Qed.

Lemma MakeCometBFTVote_separates_heights_5_6 :
  (Header.MakeCometBFTVote sample_hashOf sample_VoteSignBytes
     (Some 1%positive) store123).1
  <> (Header.MakeCometBFTVote sample_hashOf sample_VoteSignBytes
        (Some 3%positive) store123).1.
Proof.
  apply (MakeCometBFTVote_separates sample_hashOf sample_VoteSignBytes
           sample_VoteSignBytes_separates store123 1%positive 3%positive
           hdr1 hdr3 eq_refl eq_refl).
  - by vm_compute.
  - by vm_compute.
  - left. discriminate.
Defined.

(** C3 on Example 1 of the specification, with the stand-in functions. *)
Lemma MakeCometBFTVote_builds_precommit_witness :
  store123 !! 1%positive = Some hdr1
  /\ exists (height : Z) (hash : list byte) (timestamp : time.Time)
            (chainID : string),
       Header.Height (Some 1%positive) store123 = (Go.Ret height, store123)
       /\ Header.Hash sample_hashOf (Some 1%positive) store123
            = (Go.Ret hash, store123)
       /\ Header.Time (Some 1%positive) store123 = (Go.Ret timestamp, store123)
       /\ Header.ChainID (Some 1%positive) store123 = (Go.Ret chainID, store123)
       /\ Header.MakeCometBFTVote sample_hashOf sample_VoteSignBytes
            (Some 1%positive) store123 =
            (Go.Ret (sample_VoteSignBytes chainID {|
               cmtproto.Vote.Type_ := cmtproto.PrecommitType;
               cmtproto.Vote.Height := int64 height;
               cmtproto.Vote.Round := 0;
               cmtproto.Vote.BlockID := {|
                 cmtproto.BlockID.Hash := hash;
                 cmtproto.BlockID.PartSetHeader := {|
                   cmtproto.PartSetHeader.Total := 0;
                   cmtproto.PartSetHeader.Hash := [] |} |};
               cmtproto.Vote.Timestamp := timestamp;
               cmtproto.Vote.ValidatorAddress := Header.ProposerAddress hdr1;
               cmtproto.Vote.ValidatorIndex := 0
             |}), store123)
       /\ (0 <= height < 2 ^ 63 -> int64 height = height).
Proof.
  split; [reflexivity|].
  exact (MakeCometBFTVote_builds_precommit sample_hashOf sample_VoteSignBytes
           store123 1%positive hdr1 eq_refl).
Defined.

(** C3 as stated fails on a header whose height is 2^63, a value a
    [uint64] can hold: the vote carries the height -2^63, not the header
    height. *)
Lemma MakeCometBFTVote_height_wraps :
  exists v : cmtproto.Vote.t,
    Header.MakeCometBFTVote_vote sample_hashOf (Some 1%positive) store_high
      = (Go.Ret v, store_high)
    /\ uint64_ok (BaseHeader.Height (Header.BaseHeader hdr_high))
    /\ cmtproto.Vote.Height v = - 2 ^ 63
    /\ cmtproto.Vote.Height v <> BaseHeader.Height (Header.BaseHeader hdr_high).
Proof.
  eexists. split; [reflexivity|].
  split; [by vm_compute|].
  split; [reflexivity|].
  by vm_compute.
Qed.

(** ** Further properties of the methods *)

Section VerifyRelation.

Implicit Types (s : gmap Go.loc Header.t) (l : Go.loc) (h : Header.t).

Lemma Verify_ok_iff s l l' h u :
  s !! l = Some h -> s !! l' = Some u ->
  Header.Verify (Some l) (Some l') s = (Go.Ret None, s)
  <-> Header.ProposerAddress h = Header.ProposerAddress u.
Proof.
  intros Hh Hu. rewrite (Verify_run _ _ _ _ _ Hh Hu).
  destruct (bytes.Equal _ _) eqn:E.
  - apply bytes_Equal_true in E. split; [done|]. intros _. done.
  - apply bytes_Equal_false in E. split; [intros [=]|].
    intros Heq. by destruct E.
Qed.

Lemma ValidateBasic_ok_iff s l h :
  s !! l = Some h ->
  Header.ValidateBasic (Some l) s = (Go.Ret None, s)
  <-> Header.ProposerAddress h <> [].
Proof.
  intros Hh. rewrite (ValidateBasic_run _ _ _ Hh).
  destruct (Header.ProposerAddress h); split; done.
Qed.

(** X1. Acceptance by [Verify] is an equivalence on the headers of a
    store: a header verifies against itself (the same pointer passed
    twice), acceptance does not depend on which of two headers is the
    trusted one, and it carries over a chain of accepted headers. *)
Theorem Verify_accepts_equivalence s (la lb lc : Go.loc) (a b c : Header.t) :
  s !! la = Some a -> s !! lb = Some b -> s !! lc = Some c ->
  Header.Verify (Some la) (Some la) s = (Go.Ret None, s)
  /\ (Header.Verify (Some la) (Some lb) s = (Go.Ret None, s)
      <-> Header.Verify (Some lb) (Some la) s = (Go.Ret None, s))
  /\ (Header.Verify (Some la) (Some lb) s = (Go.Ret None, s) ->
      Header.Verify (Some lb) (Some lc) s = (Go.Ret None, s) ->
      Header.Verify (Some la) (Some lc) s = (Go.Ret None, s)).
Proof.
  intros Ha Hb Hc.
  rewrite (Verify_ok_iff s la la a a Ha Ha).
  rewrite (Verify_ok_iff s la lb a b Ha Hb).
  rewrite (Verify_ok_iff s lb la b a Hb Ha).
  rewrite (Verify_ok_iff s lb lc b c Hb Hc).
  rewrite (Verify_ok_iff s la lc a c Ha Hc).
  repeat split; congruence.
Qed.

Lemma Verify_accepts_equivalence_witness :
  store_more !! 1%positive = Some hdr1
  /\ store_more !! 4%positive = Some hdr4
  /\ store_more !! 5%positive = Some hdr_late
  /\ Header.Verify (Some 1%positive) (Some 5%positive) store_more
     = (Go.Ret None, store_more).
Proof.
  split; [reflexivity|]. split; [reflexivity|]. split; [reflexivity|].
  destruct (Verify_accepts_equivalence store_more 1%positive 4%positive
              5%positive hdr1 hdr4 hdr_late eq_refl eq_refl eq_refl)
    as (_ & _ & Htrans).
  apply Htrans; reflexivity.
Defined.

(** X2. A candidate that [Verify] accepts against a trusted header that
    passes [ValidateBasic] passes [ValidateBasic] too; and a candidate
    without a proposer address is rejected by [Verify] against such a
    trusted header, with an error text that ends in "got ()". *)
Theorem Verify_carries_validity s (lt lc : Go.loc) (t c : Header.t) :
  s !! lt = Some t -> s !! lc = Some c ->
  Header.ValidateBasic (Some lt) s = (Go.Ret None, s) ->
  (Header.Verify (Some lt) (Some lc) s = (Go.Ret None, s) ->
   Header.ValidateBasic (Some lc) s = (Go.Ret None, s))
  /\ (Header.ValidateBasic (Some lc) s = (Go.Ret (Some ErrNoProposerAddress), s) ->
      Header.Verify (Some lt) (Some lc) s =
        (Go.Ret (Some (VerifyError
           ("expected proposer (" ++ fmt.X (Header.ProposerAddress t)
              ++ ") got ()")%string)), s)).
Proof.
  intros Ht Hc Hvalid.
  apply (ValidateBasic_ok_iff s lt t Ht) in Hvalid.
  split.
  - intros Hok. apply (Verify_ok_iff s lt lc t c Ht Hc) in Hok.
    apply (ValidateBasic_ok_iff s lc c Hc). congruence.
  - rewrite (ValidateBasic_run _ _ _ Hc), (Verify_run _ _ _ _ _ Ht Hc).
    destruct (Header.ProposerAddress c) eqn:Ec; [|intros [=]].
    intros _.
    destruct (bytes.Equal [] (Header.ProposerAddress t)) eqn:E.
    + apply bytes_Equal_true in E. by destruct Hvalid.
    + reflexivity.
Qed.

Lemma Verify_carries_validity_witness :
  store123 !! 1%positive = Some hdr1
  /\ store123 !! 2%positive = Some hdr2
  /\ Header.ValidateBasic (Some 1%positive) store123 = (Go.Ret None, store123)
  /\ Header.ValidateBasic (Some 2%positive) store123 = (Go.Ret None, store123).
Proof.
  split; [reflexivity|]. split; [reflexivity|]. split; [reflexivity|].
  destruct (Verify_carries_validity store123 1%positive 2%positive hdr1 hdr2
              eq_refl eq_refl eq_refl) as [Hcarry _].
  apply Hcarry. reflexivity.
Defined.

(** X3. [Verify] alone does not establish validity: two headers that both
    lack a proposer address are accepted by [Verify], in either role,
    although [ValidateBasic] rejects each of them. *)
Theorem Verify_accepts_missing_proposers s (lt lc : Go.loc) (t c : Header.t) :
  s !! lt = Some t -> s !! lc = Some c ->
  length (Header.ProposerAddress t) = 0%nat ->
  length (Header.ProposerAddress c) = 0%nat ->
  Header.Verify (Some lt) (Some lc) s = (Go.Ret None, s)
  /\ Header.Verify (Some lc) (Some lt) s = (Go.Ret None, s)
  /\ Header.ValidateBasic (Some lt) s = (Go.Ret (Some ErrNoProposerAddress), s)
  /\ Header.ValidateBasic (Some lc) s = (Go.Ret (Some ErrNoProposerAddress), s).
Proof.
  intros Ht Hc Hlt Hlc.
  apply length_zero_iff_nil in Hlt. apply length_zero_iff_nil in Hlc.
  rewrite (Verify_run _ _ _ _ _ Ht Hc), (Verify_run _ _ _ _ _ Hc Ht).
  rewrite (ValidateBasic_run _ _ _ Ht), (ValidateBasic_run _ _ _ Hc).
  rewrite Hlt, Hlc. repeat split.
Qed.

Lemma Verify_accepts_missing_proposers_witness :
  store_zero !! 1%positive = Some Header.zero
  /\ store_zero !! 2%positive = Some Header.zero
  /\ Header.Verify (Some 1%positive) (Some 2%positive) store_zero
     = (Go.Ret None, store_zero)
  /\ Header.ValidateBasic (Some 2%positive) store_zero
     = (Go.Ret (Some ErrNoProposerAddress), store_zero).
Proof.
  split; [reflexivity|]. split; [reflexivity|].
  destruct (Verify_accepts_missing_proposers store_zero 1%positive 2%positive
              Header.zero Header.zero eq_refl eq_refl eq_refl eq_refl)
    as (Hv & _ & _ & Hb).
  split; [exact Hv | exact Hb].
Defined.

End VerifyRelation.

Section NilAndNew.

Variable hashOf : Header.t -> Hash.
Variable VoteSignBytes : string -> cmtproto.Vote.t -> list byte.

Implicit Types (s : gmap Go.loc Header.t) (l : Go.loc) (h : Header.t).

Lemma load_keeps_store s (p : Go.ptr) :
  (Go.load (Obj := Header.t) p s).2 = s.
Proof. apply read_only_load. Qed.

(** X4. Unlike [IsZero], the accessors, both validations and the vote
    encoder panic on a nil receiver, and [Verify] panics as soon as the
    receiver or the candidate is nil, whatever the other one is; the store
    is left as it was. *)
Theorem nil_receiver_panics s (p : Go.ptr) :
  Header.ChainID Go.nil s = (Go.Panic, s)
  /\ Header.Height Go.nil s = (Go.Panic, s)
  /\ Header.LastHeader Go.nil s = (Go.Panic, s)
  /\ Header.Time Go.nil s = (Go.Panic, s)
  /\ Header.ValidateBasic Go.nil s = (Go.Panic, s)
  /\ Header.Validate Go.nil s = (Go.Panic, s)
  /\ Header.MakeCometBFTVote hashOf VoteSignBytes Go.nil s = (Go.Panic, s)
  /\ Header.Verify p Go.nil s = (Go.Panic, s)
  /\ Header.Verify Go.nil p s = (Go.Panic, s).
Proof.
  repeat split.
  unfold Header.Verify, Go.bind, Go.load.
  destruct p as [l|]; [|done]. by destruct (s !! l).
Qed.

(** X5. [New] ignores its receiver and allocates: it returns a non-nil
    pointer that was not in the store, the new object is the zero header,
    every other object is untouched, a second [New] returns a different
    pointer, and the new header does not pass [ValidateBasic]. *)
Theorem New_allocates_fresh_zero s (p q : Go.ptr) :
  exists l s',
    Header.New p s = (Go.Ret (Some l), s')
    /\ s !! l = None
    /\ s' !! l = Some Header.zero
    /\ (forall l', l' <> l -> s' !! l' = s !! l')
    /\ (exists l2 s'', Header.New q s' = (Go.Ret (Some l2), s'') /\ l2 <> l)
    /\ Header.ValidateBasic (Some l) s'
       = (Go.Ret (Some ErrNoProposerAddress), s').
Proof.
  exists (fresh (dom s)), (<[fresh (dom s) := Header.zero]> s).
  assert (Hfresh : s !! fresh (dom s) = None).
  { apply not_elem_of_dom. apply is_fresh. }
  split; [reflexivity|]. split; [exact Hfresh|].
  split; [apply lookup_insert_eq|].
  split; [intros l' Hne; by apply lookup_insert_ne|].
  split.
  - eexists _, _. split; [reflexivity|].
    intros Heq.
    pose proof (is_fresh (dom (<[fresh (dom s) := Header.zero]> s))) as Hnew.
    rewrite Heq in Hnew. apply Hnew.
    apply elem_of_dom. rewrite lookup_insert_eq. by eexists.
  - rewrite (ValidateBasic_run _ (fresh (dom s)) Header.zero); [done|].
    apply lookup_insert_eq.
Qed.

End NilAndNew.

Section TimeRange.

Implicit Types (s : gmap Go.loc Header.t) (l : Go.loc) (h : Header.t).

Lemma Unix_inj (n m : Z) :
  - 2 ^ 63 <= n < 2 ^ 63 -> - 2 ^ 63 <= m < 2 ^ 63 ->
  time.Unix 0 n = time.Unix 0 m -> n = m.
Proof.
  intros Hn Hm Heq.
  destruct (Unix_instant n Hn) as [<- _].
  destruct (Unix_instant m Hm) as [<- _].
  by rewrite Heq.
Qed.

(** X6. For every [uint64] value of the [Time] field, [Time()] returns a
    local timestamp with its nanosecond part in [0, 10^9) whose distance
    from the epoch, taken modulo 2^64, is the field; from 2^63 on the
    timestamp lies before the epoch, at the field minus 2^64
    nanoseconds. *)
Theorem Time_of_any_uint64 s l h :
  s !! l = Some h ->
  uint64_ok (BaseHeader.Time (Header.BaseHeader h)) ->
  exists T : time.Time,
    Header.Time (Some l) s = (Go.Ret T, s)
    /\ 0 <= time.nsec T < 10 ^ 9
    /\ time.loc T = time.Local
    /\ time.UnixNano T mod 2 ^ 64 = BaseHeader.Time (Header.BaseHeader h)
    /\ (2 ^ 63 <= BaseHeader.Time (Header.BaseHeader h) ->
        time.UnixNano T = BaseHeader.Time (Header.BaseHeader h) - 2 ^ 64
        /\ time.sec T < 0).
Proof.
  intros Hh Hu. unfold uint64_ok in Hu.
  eexists. split; [by apply Time_run|].
  set (t := BaseHeader.Time (Header.BaseHeader h)) in *.
  destruct (Unix_instant (int64 t) (int64_range t)) as (Hn & Hr & Hl).
  set (T := time.Unix 0 (int64 t)) in *.
  split; [exact Hr|]. split; [exact Hl|].
  rewrite Hn. split.
  - destruct (Z_lt_ge_dec t (2 ^ 63)).
    + rewrite int64_small by lia. apply Z.mod_small. lia.
    + rewrite int64_high by lia.
      replace (t - 2 ^ 64) with (t + (-1) * 2 ^ 64) by lia.
      rewrite Z.mod_add by lia. apply Z.mod_small. lia.
  - intros Hge. rewrite int64_high by lia. split; [done|].
    unfold time.UnixNano in Hn. rewrite int64_high in Hn by lia. lia.
Qed.

Lemma Time_of_any_uint64_witness :
  store_more !! 5%positive = Some hdr_late
  /\ uint64_ok (2 ^ 63 + 5)
  /\ Header.Time (Some 5%positive) store_more
     = (Go.Ret {| time.sec := -9223372037; time.nsec := 145224197;
                  time.loc := time.Local |}, store_more)
  /\ exists T : time.Time,
       Header.Time (Some 5%positive) store_more = (Go.Ret T, store_more)
       /\ 0 <= time.nsec T < 10 ^ 9
       /\ time.loc T = time.Local
       /\ time.UnixNano T mod 2 ^ 64 = 2 ^ 63 + 5
       /\ (2 ^ 63 <= 2 ^ 63 + 5 ->
           time.UnixNano T = 2 ^ 63 + 5 - 2 ^ 64 /\ time.sec T < 0).
Proof.
  split; [reflexivity|].
  assert (Hu : uint64_ok (2 ^ 63 + 5)) by (unfold uint64_ok; lia).
  split; [exact Hu|]. split; [reflexivity|].
  exact (Time_of_any_uint64 store_more 5%positive hdr_late eq_refl Hu).
Defined.

(** X7. [Time()] loses nothing: two headers whose [uint64] [Time] fields
    differ get different timestamps. *)
Theorem Time_injective s (l1 l2 : Go.loc) (h1 h2 : Header.t) :
  s !! l1 = Some h1 -> s !! l2 = Some h2 ->
  uint64_ok (BaseHeader.Time (Header.BaseHeader h1)) ->
  uint64_ok (BaseHeader.Time (Header.BaseHeader h2)) ->
  BaseHeader.Time (Header.BaseHeader h1)
    <> BaseHeader.Time (Header.BaseHeader h2) ->
  (Header.Time (Some l1) s).1 <> (Header.Time (Some l2) s).1.
Proof.
  intros H1 H2 Hu1 Hu2 Hne.
  rewrite (Time_run _ _ _ H1), (Time_run _ _ _ H2). simpl.
  intros [= Heq]. apply Hne.
  apply Unix_inj in Heq; try apply int64_range.
  by apply int64_inj.
Qed.

Lemma Time_injective_witness :
  store_more !! 1%positive = Some hdr1
  /\ store_more !! 5%positive = Some hdr_late
  /\ (Header.Time (Some 1%positive) store_more).1
     <> (Header.Time (Some 5%positive) store_more).1.
Proof.
  split; [reflexivity|]. split; [reflexivity|].
  apply (Time_injective store_more 1%positive 5%positive hdr1 hdr_late
           eq_refl eq_refl).
  - unfold uint64_ok. simpl. lia.
  - unfold uint64_ok. simpl. lia.
  - simpl. lia.
Defined.

End TimeRange.

Section VoteRecord.

Variable hashOf : Header.t -> Hash.
Variable VoteSignBytes : string -> cmtproto.Vote.t -> list byte.

Implicit Types (s : gmap Go.loc Header.t) (l : Go.loc) (h : Header.t).

(** X8. The vote record keeps the header's height, time, hash and
    proposer apart: two headers with [uint64] height and time for which
    [MakeCometBFTVote] builds the same record have the same height, the
    same time, the same hash and the same proposer address. *)
Theorem vote_record_determines_header s (l1 l2 : Go.loc) (h1 h2 : Header.t) :
  s !! l1 = Some h1 -> s !! l2 = Some h2 ->
  uint64_ok (BaseHeader.Height (Header.BaseHeader h1)) ->
  uint64_ok (BaseHeader.Height (Header.BaseHeader h2)) ->
  uint64_ok (BaseHeader.Time (Header.BaseHeader h1)) ->
  uint64_ok (BaseHeader.Time (Header.BaseHeader h2)) ->
  (Header.MakeCometBFTVote_vote hashOf (Some l1) s).1
    = (Header.MakeCometBFTVote_vote hashOf (Some l2) s).1 ->
  BaseHeader.Height (Header.BaseHeader h1)
    = BaseHeader.Height (Header.BaseHeader h2)
  /\ BaseHeader.Time (Header.BaseHeader h1)
     = BaseHeader.Time (Header.BaseHeader h2)
  /\ hashOf h1 = hashOf h2
  /\ Header.ProposerAddress h1 = Header.ProposerAddress h2.
Proof.
  intros H1 H2 Hh1 Hh2 Ht1 Ht2.
  rewrite (MakeCometBFTVote_vote_run hashOf _ _ _ H1).
  rewrite (MakeCometBFTVote_vote_run hashOf _ _ _ H2).
  simpl. intros [= Hheight Hhash Htime Haddr].
  split; [by apply int64_inj|].
  split; [|done].
  apply int64_inj; [done..|].
  apply Unix_inj; [apply int64_range..|exact Htime].
Qed.

(** X9. What is signed: the bytes of [MakeCometBFTVote] depend on the
    header only through its chain ID, height, time, hash and proposer
    address.  Two headers that agree on these five, wherever they are
    stored and whatever their version and their remaining hash fields,
    give the same result. *)
Theorem MakeCometBFTVote_ignores_other_fields s1 s2 (l1 l2 : Go.loc)
    (h1 h2 : Header.t) :
  s1 !! l1 = Some h1 -> s2 !! l2 = Some h2 ->
  Header.BaseHeader h1 = Header.BaseHeader h2 ->
  hashOf h1 = hashOf h2 ->
  Header.ProposerAddress h1 = Header.ProposerAddress h2 ->
  (Header.MakeCometBFTVote hashOf VoteSignBytes (Some l1) s1).1
  = (Header.MakeCometBFTVote hashOf VoteSignBytes (Some l2) s2).1.
Proof.
  intros H1 H2 Hb Hhash Hp.
  apply (MakeCometBFTVote_depends_on hashOf VoteSignBytes s1 s2 l1 l2 h1 h2);
    congruence.
Qed.

End VoteRecord.

Lemma vote_record_determines_header_witness :
  store_more !! 1%positive = Some hdr1
  /\ store_more !! 4%positive = Some hdr4
  /\ (Header.MakeCometBFTVote_vote sample_hashOf (Some 1%positive) store_more).1
     = (Header.MakeCometBFTVote_vote sample_hashOf (Some 4%positive) store_more).1
  /\ Header.ProposerAddress hdr1 = Header.ProposerAddress hdr4.
Proof.
  split; [reflexivity|]. split; [reflexivity|]. split; [reflexivity|].
  assert (Hu5 : uint64_ok 5) by (unfold uint64_ok; lia).
  assert (Hu0 : uint64_ok 0) by (unfold uint64_ok; lia).
  destruct (vote_record_determines_header sample_hashOf store_more
              1%positive 4%positive hdr1 hdr4 eq_refl eq_refl
              Hu5 Hu5 Hu0 Hu0 eq_refl) as (_ & _ & _ & Haddr).
  exact Haddr.
Defined.

Lemma MakeCometBFTVote_ignores_other_fields_witness :
  store_more !! 1%positive = Some hdr1
  /\ store_more !! 4%positive = Some hdr4
  /\ Header.Version hdr1 <> Header.Version hdr4
  /\ Header.LastHeaderHash hdr1 <> Header.LastHeaderHash hdr4
  /\ (Header.MakeCometBFTVote sample_hashOf sample_VoteSignBytes
        (Some 1%positive) store_more).1
     = (Header.MakeCometBFTVote sample_hashOf sample_VoteSignBytes
          (Some 4%positive) store_more).1.
Proof.
  split; [reflexivity|]. split; [reflexivity|].
  split; [discriminate|]. split; [discriminate|].
  exact (MakeCometBFTVote_ignores_other_fields sample_hashOf
           sample_VoteSignBytes store_more store_more 1%positive 4%positive
           hdr1 hdr4 eq_refl eq_refl eq_refl eq_refl eq_refl).
Defined.
